(** * Switchyard packet headers: the Ethernet header codec

    A shallow embedding of [switchyard/lib/packet/ethernet.py] and of the
    parts of Python's [struct] and [enum] modules it relies on, followed by
    the properties of the header codec: size, wire layout, round trip,
    decoding failures and next-header dispatch. *)

From Stdlib Require Import ZArith Lia String.
From Stdlib Require Import Init.Byte Strings.Byte.
From stdpp Require Import base option list countable gmap pretty.

Local Open Scope Z_scope.

(** ** Bytes and the [struct] formats of [__PACKFMT__ = '!6s6sH'] *)

Abbreviation bytes := (list byte).

Definition Z_of_byte (b : byte) : Z := Z.of_N (Byte.to_N b).

Definition byte_of_Z (z : Z) : byte :=
  match Byte.of_N (Z.to_N z) with
  | Some b => b
  | None => x00
  end.

(** Python exceptions raised along the paths of this module. *)
Inductive exn : Type :=
| Exception (msg : string)   (* raise Exception(msg) *)
| ValueError (v : Z)         (* EtherType(v): v is not a valid EtherType *)
| struct_error               (* struct.pack / struct.unpack *)
| AddressError.              (* EthAddr(...) on a malformed address *)

Inductive result (A : Type) : Type :=
| Ok (a : A)
| Err (e : exn).
Arguments Ok {A} a.
Arguments Err {A} e.

(** ['6s']: the argument truncated or zero-padded to exactly 6 bytes. *)
Definition pack_6s (s : bytes) : bytes := take 6 (s ++ replicate 6 x00).

(** ['!H']: an unsigned 16-bit integer, most significant byte first. *)
Definition pack_H (v : Z) : bytes := [byte_of_Z (v / 256); byte_of_Z (v mod 256)].

Definition unpack_H (b : bytes) : Z :=
  match b with
  | [hi; lo] => 256 * Z_of_byte hi + Z_of_byte lo
  | _ => 0
  end.

(** [struct.calcsize('!6s6sH')] *)
Definition calcsize_PACKFMT : nat := (6 + 6 + 2)%nat.

(** [struct.pack('!6s6sH', s1, s2, v)]: [H] refuses integers outside
    [0 .. 65535]. *)
Definition struct_pack (s1 s2 : bytes) (v : Z) : result bytes :=
  if (0 <=? v) && (v <? 65536)
  then Ok (pack_6s s1 ++ pack_6s s2 ++ pack_H v)
  else Err struct_error.

(** [struct.unpack('!6s6sH', buf)]: the buffer must have exactly the size
    of the format. *)
Definition struct_unpack (buf : bytes) : result (bytes * bytes * Z) :=
  if (length buf =? calcsize_PACKFMT)%nat
  then Ok (take 6 buf, take 6 (drop 6 buf), unpack_H (drop 12 buf))
  else Err struct_error.

(** ** Hardware addresses *)

(** Modelled from the spec: the class [EthAddr] of [switchyard.lib.address]
    is not among the sources.  The spec fixes a hardware address as a 6-byte
    value, compared by its bytes; [packed] is its wire form and the
    constructor applied to six raw bytes yields the address made of them.
    Byte strings of another length are refused here. *)
Record EthAddr : Type := mkEthAddr { o0 : byte; o1 : byte; o2 : byte; o3 : byte; o4 : byte; o5 : byte }.

Definition packed (a : EthAddr) : bytes := [o0 a; o1 a; o2 a; o3 a; o4 a; o5 a].

Definition EthAddr_new (raw : bytes) : result EthAddr :=
  match raw with
  | [a; b; c; d; e; f] => Ok (mkEthAddr a b c d e f)
  | _ => Err AddressError
  end.

#[global] Instance byte_eq_dec : EqDecision byte.
Proof. exact Byte.byte_eq_dec. Defined.

#[global] Instance EthAddr_eq_dec : EqDecision EthAddr.
Proof. solve_decision. Defined.

(** [EthAddr.__eq__]: equality of the raw bytes. *)
Definition EthAddr_eq (a b : EthAddr) : bool := bool_decide (packed a = packed b).

(** ** The EtherType enumeration *)

(** [switchyard.lib.packet.ethcommon.EtherType] is an [Enum] whose
    declaration is not among the sources; it is taken as a parameter.
    [value] is a member's [.value], [str] its printed name, [by_value v] the
    by-value call [EtherType(v)] ([None] when it raises ValueError), [IP] and
    [ARP] the two members this module names.  Members are looked up by
    value, and their values fit the 16-bit type field. *)
Class EtherTypeEnum : Type := {
  EtherType : Type;
  EtherType_eq_dec :: EqDecision EtherType;
  EtherType_countable :: Countable EtherType;
  value : EtherType → Z;
  str : EtherType → string;
  by_value : Z → option EtherType;
  IP : EtherType;
  ARP : EtherType;
  by_value_spec : ∀ v e, by_value v = Some e ↔ value e = v;
  value_u16 : ∀ e, 0 ≤ value e < 65536
}.

(** Classes a dispatch table can name as the next header. *)
Inductive HeaderClass : Type := Arp.

(** What a caller may pass where an EtherType is expected: an integer or a
    member of the enumeration. *)
Inductive ethertype_arg `{EtherTypeEnum} : Type :=
| ByValue (v : Z)
| ByMember (e : EtherType).

(** [EtherType(x)]: a member is returned as it is, an integer is looked up
    by value. *)
Definition EtherType_call `{EtherTypeEnum} (x : ethertype_arg) : result EtherType :=
  match x with
  | ByMember e => Ok e
  | ByValue v =>
      match by_value v with
      | Some e => Ok e
      | None => Err (ValueError v)
      end
  end.

(** ** The Ethernet header *)

Section Ethernet.
Context `{EtherTypeEnum}.

(** The three slots [__src], [__dst] and [__ethertype] of an instance. *)
Record Ethernet : Type := mkEthernet {
  src : EthAddr;
  dst : EthAddr;
  ethertype : EtherType
}.

(** [EtherTypeClasses]: [None] is Python's [None], "no class registered". *)
Definition EtherTypeClasses : gmap EtherType (option HeaderClass) :=
  <[ARP := Some Arp]> (<[IP := None]> ∅).

Definition MINSIZE : nat := calcsize_PACKFMT.

(** Methods run on [self] and may mutate it before they raise: a method is
    a function from the instance to the instance it leaves behind and its
    outcome. *)
Definition M (A : Type) : Type := Ethernet → Ethernet * result A.

#[local] Instance M_ret : MRet M := λ A a self, (self, Ok a).
#[local] Instance M_bind : MBind M := λ A B k m self,
  match m self with
  | (self', Ok a) => k a self'
  | (self', Err e) => (self', Err e)
  end.
Definition raise {A} (e : exn) : M A := λ self, (self, Err e).
Definition lift {A} (r : result A) : M A := λ self, (self, r).

(** [__init__], with its three arguments given. *)
Definition init (s d : bytes) (t : ethertype_arg) : result Ethernet :=
  match EthAddr_new s with
  | Err e => Err e
  | Ok s' =>
      match EthAddr_new d with
      | Err e => Err e
      | Ok d' =>
          match EtherType_call t with
          | Err e => Err e
          | Ok t' => Ok (mkEthernet s' d' t')
          end
      end
  end.

Definition size (self : Ethernet) : nat := calcsize_PACKFMT.

(** The property setters: the right-hand side is evaluated first, so the
    slot is assigned only when the constructor call returns. *)
Definition set_src (v : bytes) : M unit :=
  λ self,
    match EthAddr_new v with
    | Ok a => (mkEthernet a (dst self) (ethertype self), Ok tt)
    | Err e => (self, Err e)
    end.

Definition set_dst (v : bytes) : M unit :=
  λ self,
    match EthAddr_new v with
    | Ok a => (mkEthernet (src self) a (ethertype self), Ok tt)
    | Err e => (self, Err e)
    end.

Definition set_ethertype (v : ethertype_arg) : M unit :=
  λ self,
    match EtherType_call v with
    | Ok t => (mkEthernet (src self) (dst self) t, Ok tt)
    | Err e => (self, Err e)
    end.

Definition to_bytes (self : Ethernet) : result bytes :=
  struct_pack (packed (src self)) (packed (dst self)) (value (ethertype self)).

Definition not_enough_bytes (n : nat) : string :=
  "Not enough bytes (" +:+ pretty n +:+ ") to reconstruct an Ethernet object".

Definition from_bytes (raw : bytes) : M bytes :=
  if (length raw <? MINSIZE)%nat
  then raise (Exception (not_enough_bytes (length raw)))
  else
    '(s, d, t) ← lift (struct_unpack (take MINSIZE raw));
    set_src s;;
    set_dst d;;
    set_ethertype (ByValue t);;
    mret (drop MINSIZE raw).

Definition no_mapping (t : EtherType) : string :=
  "No mapping for ethertype " +:+ str t +:+ " to a packet header class".

Definition no_class_warning (t : EtherType) : string :=
  "Warning: no class exists to parse next protocol type: " +:+ str t.

(** [next_header_class] reads [self] only; its outcome is paired with the
    lines it prints. *)
Definition next_header_class (self : Ethernet) : list string * result (option HeaderClass) :=
  if bool_decide (EtherTypeClasses !! ethertype self = None)
  then ([], Err (Exception (no_mapping (ethertype self))))
  else
    let cls := default None (EtherTypeClasses !! ethertype self) in
    match cls with
    | None => ([no_class_warning (ethertype self)], Ok cls)
    | Some _ => ([], Ok cls)
    end.

(** [__eq__] *)
Definition Ethernet_eq (self other : Ethernet) : bool :=
  EthAddr_eq (src self) (src other) && EthAddr_eq (dst self) (dst other)
  && bool_decide (ethertype self = ethertype other).

(** [b[:-1]] *)
Definition drop_last (b : bytes) : bytes := take (length b - 1) b.

End Ethernet.

Arguments Ethernet {_}.
Arguments mkEthernet {_} _ _ _.

(** ** The ICMP-style header

    The header class exercised by [tests/test_icmp.py] is not among the
    sources; the definitions of this module follow sections 4.4 and 6 of
    the specification. *)
Module ICMP.

(** Modelled from the spec: the primary type enumeration of the ICMP header
    (absent from the sources), with the two type codes the spec gives. *)
Inductive ICMPType : Type := EchoRequest | SourceQuench.

(** Modelled from the spec: the numeric value of a primary type, "type 8"
    for the echo request and "type 4" for source quench. *)
Definition ICMPType_value (t : ICMPType) : Z :=
  match t with EchoRequest => 8 | SourceQuench => 4 end.

(** Modelled from the spec: the subtype payload owned by the header, one
    shape per primary type: identifier, sequence and data for an echo
    request; a reserved 4-byte body followed by data for source quench. *)
Inductive icmpdata : Type :=
| ICMPEchoRequest (identifier sequence : Z) (data : bytes)
| ICMPSourceQuench (data : bytes).

(** Modelled from the spec: the header's own fields (type and code; the
    checksum is computed on encoding) and its active payload. *)
Record ICMP : Type := mkICMP {
  icmptype : ICMPType;
  icmpcode : Z;
  payload : icmpdata
}.

(** Modelled from the spec: "a fresh default instance" of the shape bound
    to a type, with zero fields and no data. *)
Definition default_data (t : ICMPType) : icmpdata :=
  match t with
  | EchoRequest => ICMPEchoRequest 0 0 []
  | SourceQuench => ICMPSourceQuench []
  end.

(** Modelled from the spec: the default header, an echo request with code 0,
    identifier 0 and sequence 0. *)
Definition ICMP_default : ICMP := mkICMP EchoRequest 0 (default_data EchoRequest).

(** Modelled from the spec: setting the primary type replaces the payload
    by a fresh default one. *)
Definition set_icmptype (t : ICMPType) (self : ICMP) : ICMP :=
  mkICMP t (icmpcode self) (default_data t).

(** Modelled from the spec: the payload's own encoded bytes, two 16-bit
    big-endian fields for the echo request, four zero bytes for source
    quench, then the data. *)
Definition data_to_bytes (d : icmpdata) : bytes :=
  match d with
  | ICMPEchoRequest i s data => pack_H i ++ pack_H s ++ data
  | ICMPSourceQuench data => [x00; x00; x00; x00] ++ data
  end.

(** Modelled from the spec: a byte sequence read as 16-bit big-endian words
    (an odd last byte is the high byte of its word). *)
Fixpoint words (b : bytes) : list Z :=
  match b with
  | hi :: lo :: rest => (256 * Z_of_byte hi + Z_of_byte lo) :: words rest
  | [hi] => [256 * Z_of_byte hi]
  | [] => []
  end.

(** Modelled from the spec: 16-bit addition with end-around carry. *)
Definition add_carry (a b : Z) : Z := (a + b) mod 65536 + (a + b) / 65536.

(** Modelled from the spec: the Internet checksum, the one's complement of
    the end-around-carry sum of the words. *)
Definition checksum (b : bytes) : Z := 65535 - fold_left add_carry (words b) 0.

(** Modelled from the spec: the encoding, a 4-byte prefix (type, code,
    big-endian checksum) followed by the payload's bytes; the checksum is
    that of the encoding with a zero checksum field. *)
Definition to_bytes (self : ICMP) : bytes :=
  let body := data_to_bytes (payload self) in
  let t := byte_of_Z (ICMPType_value (icmptype self)) in
  let c := byte_of_Z (icmpcode self) in
  let csum := checksum ([t; c] ++ pack_H 0 ++ body) in
  [t; c] ++ pack_H csum ++ body.

End ICMP.

(** ** A concrete enumeration

    Three members with their IEEE values, on which the development is
    run: [IP] and [ARP] are in the dispatch table, [IPv6] is not. *)
Module Wire.

Inductive member : Type := m_IP | m_ARP | m_IPv6.

Definition member_value (m : member) : Z :=
  match m with m_IP => 0x0800 | m_ARP => 0x0806 | m_IPv6 => 0x86dd end.

Definition member_str (m : member) : string :=
  match m with
  | m_IP => "EtherType.IP"
  | m_ARP => "EtherType.ARP"
  | m_IPv6 => "EtherType.IPv6"
  end.

Definition member_by_value (v : Z) : option member :=
  if v =? 0x0800 then Some m_IP
  else if v =? 0x0806 then Some m_ARP
  else if v =? 0x86dd then Some m_IPv6
  else None.

#[global] Instance member_eq_dec : EqDecision member.
Proof. solve_decision. Defined.

#[global] Instance member_countable : Countable member.
Proof.
  refine (inj_countable'
    (λ m, match m with m_IP => 0 | m_ARP => 1 | m_IPv6 => 2 end)%nat
    (λ n, match n with O => m_IP | S O => m_ARP | _ => m_IPv6 end) _).
  by intros [].
Defined.

Lemma member_by_value_spec v m : member_by_value v = Some m ↔ member_value m = v.
Proof.
  unfold member_by_value. split.
  - repeat case_match; intros [= <-]; simpl; lia.
  - intros <-. by destruct m.
Qed.

Lemma member_value_u16 m : 0 ≤ member_value m < 65536.
Proof. destruct m; simpl; lia. Qed.

#[global] Instance enum : EtherTypeEnum := {|
  EtherType := member;
  value := member_value;
  str := member_str;
  by_value := member_by_value;
  IP := m_IP;
  ARP := m_ARP;
  by_value_spec := member_by_value_spec;
  value_u16 := member_value_u16
|}.

Definition addr_a : EthAddr := mkEthAddr x00 x11 x22 x33 x44 x55.
Definition addr_b : EthAddr := mkEthAddr xff xfe xfd xfc xfb xfa.
Definition ETHER_ANY : EthAddr := mkEthAddr x00 x00 x00 x00 x00 x00.

Definition frame_ip : Ethernet := mkEthernet addr_a addr_b m_IP.
Definition frame_arp : Ethernet := mkEthernet addr_b addr_a m_ARP.
Definition frame_ipv6 : Ethernet := mkEthernet addr_a addr_b m_IPv6.
Definition blank : Ethernet := mkEthernet ETHER_ANY ETHER_ANY m_IP.

(** Fourteen bytes whose type field, [0x1234], is no member. *)
Definition bad_type : bytes :=
  packed addr_b ++ packed addr_a ++ [x12; x34].

End Wire.

(** ** The test-mode entry point

    [main_test] of [switchyard/switchy_test.py].  The functions it calls
    are recorded as the sequence of calls made; what the ones that can fail
    do (return or raise) is given by the environment of the section. *)
Module SwitchyTest.

Section MainTest.
(** Exceptions of the callees, and the entry point [import_user_code]
    returns. *)
Variables (X EntryPoint : Type).
(** [compile_scenario(s)]: [None] when it returns, [Some x] when it
    raises [x]. *)
Variable compile_scenario_raises : string → option X.
(** [import_user_code(usercode)]: the entry point, or the exception. *)
Variable import_user_code_result : string → X + EntryPoint.
(** [run_tests(scenarios, entry, no_pdb, verbose)]. *)
Variable run_tests_raises : list string → EntryPoint → bool → bool → option X.

Inductive call : Type :=
| log_failure (msg : string)
| log_info (msg : string)
| compile_scenario (scenario : string)
| import_user_code (usercode : string)
| run_tests (scenarios : list string) (entry : EntryPoint) (no_pdb verbose : bool).

(** The loop [for scenario in scenarios]: the calls made, and the exception
    that ended it, if any. *)
Fixpoint compile_loop (scenarios : list string) : list call * option X :=
  match scenarios with
  | [] => ([], None)
  | scenario :: more =>
      let calls := [log_info ("Compiling scenario " +:+ scenario);
                    compile_scenario scenario] in
      match compile_scenario_raises scenario with
      | Some x => (calls, Some x)
      | None => let '(later, out) := compile_loop more in (calls ++ later, out)
      end
  end.

(** [scenarios] is [None] or a list; [not scenarios or not len(scenarios)]
    holds for [None] and for the empty list. *)
Definition main_test (compile : bool) (scenarios : option (list string))
    (usercode : string) (dryrun no_pdb verbose : bool) : list call * option X :=
  match scenarios with
  | None | Some [] =>
      ([log_failure "In test mode, but no scenarios specified."], None)
  | Some scenarios =>
      if compile then compile_loop scenarios
      else
        match import_user_code_result usercode with
        | inl x => ([import_user_code usercode], Some x)
        | inr usercode_entry_point =>
            if dryrun
            then ([import_user_code usercode;
                   log_info "Imported your code successfully.  Exiting dry run."],
                  None)
            else ([import_user_code usercode;
                   run_tests scenarios usercode_entry_point no_pdb verbose],
                  run_tests_raises scenarios usercode_entry_point no_pdb verbose)
        end
  end.

End MainTest.

Arguments log_failure {EntryPoint} msg.
Arguments log_info {EntryPoint} msg.
Arguments compile_scenario {EntryPoint} scenario.
Arguments import_user_code {EntryPoint} usercode.
Arguments run_tests {EntryPoint} scenarios entry no_pdb verbose.

End SwitchyTest.

(** ** Concrete inputs for the entry point and the decoder *)
Module Sample.

(** The encoding of [Wire.frame_arp]. *)
Definition arp_frame : bytes :=
  [xff; xfe; xfd; xfc; xfb; xfa; x00; x11; x22; x33; x44; x55; x08; x06].

(** An environment in which the scenario ["broken"] does not compile, the
    module ["missing"] cannot be imported, and running tests returns. *)
Definition compile_raises (scenario : string) : option string :=
  if String.eqb scenario "broken" then Some "SyntaxError" else None.

Definition import_result (usercode : string) : string + nat :=
  if String.eqb usercode "missing" then inl "ImportError" else inr 7%nat.

Definition run_raises (scenarios : list string) (entry : nat) (no_pdb verbose : bool)
  : option string := None.

Definition main_test :=
  SwitchyTest.main_test string nat compile_raises import_result run_raises.

End Sample.

(** * Properties *)

(** ** Bytes and 16-bit fields *)

Lemma Z_of_byte_range (b : byte) : 0 ≤ Z_of_byte b < 256.
Proof.
  unfold Z_of_byte. pose proof (Byte.to_N_bounded b). lia.
Qed.

Lemma byte_of_Z_of_byte (b : byte) : byte_of_Z (Z_of_byte b) = b.
Proof.
  unfold byte_of_Z, Z_of_byte. by rewrite N2Z.id, Byte.of_to_N.
Qed.

Lemma Z_of_byte_of_Z (z : Z) : 0 ≤ z < 256 → Z_of_byte (byte_of_Z z) = z.
Proof.
  intros Hz. unfold byte_of_Z, Z_of_byte.
  destruct (Byte.of_N (Z.to_N z)) as [b|] eqn:Hb.
  - apply Byte.to_of_N in Hb. rewrite Hb. lia.
  - apply Byte.of_N_None_iff in Hb. lia.
Qed.

Lemma unpack_pack_H (v : Z) : 0 ≤ v < 65536 → unpack_H (pack_H v) = v.
Proof.
  intros Hv. unfold pack_H, unpack_H.
  rewrite !Z_of_byte_of_Z.
  - pose proof (Z.div_mod v 256). lia.
  - apply Z.mod_pos_bound. lia.
  - split; [apply Z.div_pos; lia | apply Z.div_lt_upper_bound; lia].
Qed.

Lemma pack_unpack_H (hi lo : byte) : pack_H (unpack_H [hi; lo]) = [hi; lo].
Proof.
  pose proof (Z_of_byte_range hi). pose proof (Z_of_byte_range lo).
  unfold pack_H, unpack_H.
  replace ((256 * Z_of_byte hi + Z_of_byte lo) / 256) with (Z_of_byte hi)
    by (apply Z.div_unique with (r := Z_of_byte lo); lia).
  replace ((256 * Z_of_byte hi + Z_of_byte lo) mod 256) with (Z_of_byte lo)
    by (apply Z.mod_unique with (q := Z_of_byte hi); lia).
  by rewrite !byte_of_Z_of_byte.
Qed.

Lemma length_pack_6s (s : bytes) : length (pack_6s s) = 6%nat.
Proof.
  unfold pack_6s. rewrite length_take, length_app, length_replicate. lia.
Qed.

Lemma pack_6s_packed (a : EthAddr) : pack_6s (packed a) = packed a.
Proof. reflexivity. Qed.

Lemma EthAddr_new_packed (a : EthAddr) : EthAddr_new (packed a) = Ok a.
Proof. by destruct a. Qed.

Lemma EthAddr_eq_refl (a : EthAddr) : EthAddr_eq a a = true.
Proof. unfold EthAddr_eq. by apply bool_decide_eq_true. Qed.

(** ** The header *)

Section EthernetFacts.
Context {E : EtherTypeEnum}.
Implicit Types (self h : Ethernet) (raw : bytes).

Lemma by_value_value (e : EtherType) : by_value (value e) = Some e.
Proof. by apply by_value_spec. Qed.

(** Every field assignment is the state of a constructed header. *)
Lemma init_fields h :
  init (packed (src h)) (packed (dst h)) (ByMember (ethertype h)) = Ok h.
Proof.
  unfold init. rewrite !EthAddr_new_packed. simpl. by destruct h.
Qed.

Lemma to_bytes_layout h :
  to_bytes h = Ok (packed (src h) ++ packed (dst h) ++ pack_H (value (ethertype h))).
Proof.
  unfold to_bytes, struct_pack.
  pose proof (value_u16 (ethertype h)) as Hv.
  destruct (Z.leb_spec 0 (value (ethertype h))); [|lia].
  destruct (Z.ltb_spec (value (ethertype h)) 65536); [|lia].
  reflexivity.
Qed.

Lemma Ethernet_eq_refl h : Ethernet_eq h h = true.
Proof.
  unfold Ethernet_eq. rewrite !EthAddr_eq_refl. simpl.
  by apply bool_decide_eq_true.
Qed.

(** Below the minimum size nothing is decoded and [self] is untouched. *)
Lemma from_bytes_short raw self :
  (length raw < MINSIZE)%nat →
  from_bytes raw self = (self, Err (Exception (not_enough_bytes (length raw)))).
Proof.
  intros Hlen. unfold from_bytes.
  destruct (Nat.ltb_spec (length raw) MINSIZE); [reflexivity | lia].
Qed.

(** From the minimum size on, both addresses are stored before the type
    field is looked up in the enumeration. *)
Lemma from_bytes_long raw self :
  (MINSIZE ≤ length raw)%nat →
  ∃ s d,
    packed s = take 6 raw ∧ packed d = take 6 (drop 6 raw) ∧
    from_bytes raw self =
      match by_value (unpack_H (take 2 (drop 12 raw))) with
      | Some t => (mkEthernet s d t, Ok (drop MINSIZE raw))
      | None => (mkEthernet s d (ethertype self),
                 Err (ValueError (unpack_H (take 2 (drop 12 raw)))))
      end.
Proof.
  intros Hlen. unfold MINSIZE, calcsize_PACKFMT in Hlen. simpl in Hlen.
  do 14 (destruct raw as [|? raw]; [simpl in Hlen; lia|]).
  eexists (mkEthAddr _ _ _ _ _ _), (mkEthAddr _ _ _ _ _ _).
  split; [reflexivity|]. split; [reflexivity|].
  unfold from_bytes. cbn. rewrite take_0, drop_0.
  unfold mbind, M_bind, lift, struct_unpack, set_src, set_dst, set_ethertype.
  cbn. by destruct (by_value _).
Qed.

End EthernetFacts.

Lemma packed_inj (a b : EthAddr) : packed a = packed b → a = b.
Proof. destruct a, b. unfold packed. simpl. by intros [= -> -> -> -> -> ->]. Qed.

Section EthernetClaims.
Context {E : EtherTypeEnum}.
Implicit Types (self h : Ethernet) (raw : bytes).

Lemma length_to_bytes h raw : to_bytes h = Ok raw → length raw = 14%nat.
Proof. rewrite to_bytes_layout. by intros [= <-]. Qed.

(** The dispatch table has exactly the two entries of its literal; the
    later entry wins should the two keys be one member. *)
Lemma EtherTypeClasses_lookup (t : EtherType) :
  EtherTypeClasses !! t =
    if decide (t = ARP) then Some (Some Arp)
    else if decide (t = IP) then Some None
    else None.
Proof.
  unfold EtherTypeClasses.
  destruct (decide (t = ARP)) as [->|Ha]; [by rewrite lookup_insert_eq|].
  rewrite lookup_insert_ne by done.
  destruct (decide (t = IP)) as [->|Hi]; [by rewrite lookup_insert_eq|].
  by rewrite lookup_insert_ne.
Qed.

(** C1 (round trip): for every header [H], whatever its two hardware
    addresses and whichever member of the enumeration its type, decoding
    the bytes of [H.to_bytes()] with [from_bytes], on any instance [self],
    leaves [self] equal to [H] under [__eq__] and returns the empty
    remainder. *)
Theorem from_bytes_to_bytes (H self : Ethernet) :
  ∃ raw self',
    to_bytes H = Ok raw ∧
    from_bytes raw self = (self', Ok []) ∧
    Ethernet_eq self' H = true.
Proof.
  exists (packed (src H) ++ packed (dst H) ++ pack_H (value (ethertype H))), H.
  split; [apply to_bytes_layout|]. split; [|apply Ethernet_eq_refl].
  set (raw := _ ++ _).
  destruct (from_bytes_long raw self) as (s & d & Hs & Hd & ->); [by cbn|].
  replace (take 2 (drop 12 raw)) with (pack_H (value (ethertype H))) by done.
  rewrite unpack_pack_H, by_value_value by apply value_u16.
  apply packed_inj in Hs, Hd. subst s d. by destruct H.
Qed.

(** C2 (size consistency): for every header, in whatever field state,
    [to_bytes()] returns a byte sequence and [size()] is its length. *)
Theorem size_to_bytes h :
  ∃ raw, to_bytes h = Ok raw ∧ size h = length raw.
Proof.
  eexists. split; [apply to_bytes_layout|]. reflexivity.
Qed.

(** C3 (truncation): the size of a header is positive, and decoding its
    encoding without the last byte raises the exception of the length
    guard, leaving [self] as it was; so does decoding any input shorter
    than the minimum size of 14 bytes. *)
Theorem from_bytes_truncated h self raw :
  (0 < size h)%nat ∧ MINSIZE = 14%nat ∧
  (∃ b, to_bytes h = Ok b ∧
        from_bytes (drop_last b) self =
          (self, Err (Exception (not_enough_bytes (length b - 1))))) ∧
  ((length raw < MINSIZE)%nat →
     from_bytes raw self =
       (self, Err (Exception (not_enough_bytes (length raw))))).
Proof.
  split; [unfold size, calcsize_PACKFMT; lia|]. split; [done|]. split.
  - eexists. split; [apply to_bytes_layout|].
    rewrite from_bytes_short; [done | cbn; lia].
  - apply from_bytes_short.
Qed.

(** C4, as amended (failed decode): when [from_bytes] raises on an input
    shorter than 14 bytes, the exception is that of the length guard and
    [src], [dst] and [ethertype] are as before the call.  When it raises on
    a longer input, the exception is the ValueError of the enumeration for
    the decoded type field, [ethertype] is as before the call, and [src]
    and [dst] hold the addresses decoded from the first twelve bytes. *)
Theorem from_bytes_failure raw self self' e :
  from_bytes raw self = (self', Err e) →
  ethertype self' = ethertype self ∧
  ((length raw < MINSIZE)%nat →
     self' = self ∧ e = Exception (not_enough_bytes (length raw))) ∧
  ((MINSIZE ≤ length raw)%nat →
     e = ValueError (unpack_H (take 2 (drop 12 raw))) ∧
     packed (src self') = take 6 raw ∧
     packed (dst self') = take 6 (drop 6 raw)).
Proof.
  intros Hf.
  destruct (Nat.lt_ge_cases (length raw) MINSIZE) as [Hlt|Hge].
  - rewrite from_bytes_short in Hf by done. injection Hf as <- <-.
    split; [done|]. split; [done|]. lia.
  - destruct (from_bytes_long raw self Hge) as (s & d & Hs & Hd & Hl).
    rewrite Hl in Hf. destruct (by_value _); [discriminate|].
    injection Hf as <- <-. split; [done|]. split; [lia|]. done.
Qed.

(** C5, as amended (recognized terminal): when the header's type is in the
    dispatch table with no class ([None]), [next_header_class] returns
    [None] without raising, after printing one warning line. *)
Theorem next_header_class_terminal h :
  EtherTypeClasses !! ethertype h = Some None →
  next_header_class h = ([no_class_warning (ethertype h)], Ok None).
Proof.
  intros Hl. unfold next_header_class. rewrite Hl.
  rewrite bool_decide_eq_false_2 by done. reflexivity.
Qed.

(** C6 (unrecognized): when the header's type has no entry in the dispatch
    table, [next_header_class] prints nothing and raises the "No mapping"
    exception instead of returning a value. *)
Theorem next_header_class_unrecognized h :
  EtherTypeClasses !! ethertype h = None →
  next_header_class h = ([], Err (Exception (no_mapping (ethertype h)))).
Proof.
  intros Hl. unfold next_header_class.
  by rewrite bool_decide_eq_true_2.
Qed.

(** C7 (type setter): assigning an integer that is the value of no member
    raises ValueError and leaves the header, its type included, as it was;
    assigning the value of a member stores that member and touches neither
    address. *)
Theorem set_ethertype_domain (v : Z) self :
  ((∀ t, value t ≠ v) →
     set_ethertype (ByValue v) self = (self, Err (ValueError v))) ∧
  (∀ t, value t = v →
     set_ethertype (ByValue v) self =
       (mkEthernet (src self) (dst self) t, Ok tt)).
Proof.
  unfold set_ethertype, EtherType_call. split.
  - intros Hn. destruct (by_value v) as [t|] eqn:Hv; [|done].
    apply by_value_spec in Hv. by destruct (Hn t).
  - intros t Hv. apply by_value_spec in Hv. by rewrite Hv.
Qed.

(** C8 (wire format): [to_bytes()] returns the six bytes of [src], the six
    bytes of [dst] and two bytes holding the type's value most significant
    byte first, 14 bytes in all, and [size()] is 14. *)
Theorem to_bytes_wire_format h :
  ∃ hi lo,
    to_bytes h = Ok (packed (src h) ++ packed (dst h) ++ [hi; lo]) ∧
    length (packed (src h)) = 6%nat ∧
    length (packed (dst h)) = 6%nat ∧
    256 * Z_of_byte hi + Z_of_byte lo = value (ethertype h) ∧
    length (packed (src h) ++ packed (dst h) ++ [hi; lo]) = 14%nat ∧
    size h = 14%nat.
Proof.
  exists (byte_of_Z (value (ethertype h) / 256)),
         (byte_of_Z (value (ethertype h) mod 256)).
  split; [apply to_bytes_layout|]. split; [done|]. split; [done|].
  split; [|done]. apply (unpack_pack_H (value (ethertype h))), value_u16.
Qed.

(** C10 (failure at full length): an input of 14 bytes or more whose type
    field is the value of no member makes [from_bytes] raise the ValueError
    of the enumeration, not the exception of the length guard; and every
    16-bit integer that is the value of no member is the type field of a
    14-byte input, on which decoding so fails. *)
Theorem from_bytes_bad_type self :
  (∀ raw, (MINSIZE ≤ length raw)%nat →
     by_value (unpack_H (take 2 (drop 12 raw))) = None →
     ∃ self', from_bytes raw self =
       (self', Err (ValueError (unpack_H (take 2 (drop 12 raw)))))) ∧
  (∀ v, 0 ≤ v < 65536 → by_value v = None →
     ∃ raw self', length raw = 14%nat ∧
       from_bytes raw self = (self', Err (ValueError v))).
Proof.
  assert (∀ raw, (MINSIZE ≤ length raw)%nat →
     by_value (unpack_H (take 2 (drop 12 raw))) = None →
     ∃ self', from_bytes raw self =
       (self', Err (ValueError (unpack_H (take 2 (drop 12 raw)))))) as Hgen.
  { intros raw Hlen Hv.
    destruct (from_bytes_long raw self Hlen) as (s & d & _ & _ & ->).
    rewrite Hv. by eexists. }
  split; [done|]. intros v Hr Hv.
  set (raw := replicate 12 x00 ++ pack_H v).
  destruct (Hgen raw) as [self' Hf]; [by cbn | |].
  - change (take 2 (drop 12 raw)) with (pack_H v). by rewrite unpack_pack_H.
  - exists raw, self'. split; [done|].
    change (take 2 (drop 12 raw)) with (pack_H v) in Hf.
    by rewrite unpack_pack_H in Hf.
Qed.

End EthernetClaims.

(** ** The properties on the concrete enumeration *)

Lemma from_bytes_truncated_witness :
  (length [x08; x00] < MINSIZE)%nat ∧
  from_bytes [x08; x00] Wire.blank =
    (Wire.blank,
     Err (Exception "Not enough bytes (2) to reconstruct an Ethernet object")).
Proof.
  split; [cbn; lia|].
  apply (from_bytes_truncated Wire.frame_ip Wire.blank [x08; x00]).
  cbn; lia.
Defined.

(** A 14-byte input with an unknown type field: the call raises, and the
    instance it leaves behind carries the input's two addresses. *)
Lemma from_bytes_partial_mutation :
  from_bytes Wire.bad_type Wire.blank =
    (@mkEthernet Wire.enum Wire.addr_b Wire.addr_a Wire.m_IP, Err (ValueError 0x1234)) ∧
  src (@mkEthernet Wire.enum Wire.addr_b Wire.addr_a Wire.m_IP) ≠ src Wire.blank.
Proof. split; [reflexivity | discriminate]. Qed.

Lemma from_bytes_failure_witness :
  from_bytes Wire.bad_type Wire.frame_arp =
    (@mkEthernet Wire.enum Wire.addr_b Wire.addr_a Wire.m_ARP, Err (ValueError 0x1234)) ∧
  ethertype (@mkEthernet Wire.enum Wire.addr_b Wire.addr_a Wire.m_ARP)
    = ethertype Wire.frame_arp ∧
  packed Wire.addr_b = take 6 Wire.bad_type ∧
  packed Wire.addr_a = take 6 (drop 6 Wire.bad_type).
Proof.
  split; [reflexivity|].
  destruct (from_bytes_failure Wire.bad_type Wire.frame_arp
              (@mkEthernet Wire.enum Wire.addr_b Wire.addr_a Wire.m_ARP)
              (ValueError 0x1234) eq_refl) as (Ht & _ & Hlong).
  split; [exact Ht|]. apply Hlong. cbn; lia.
Defined.

(** The default header's type, [IP], is in the table with no class: the
    lookup returns [None] and has printed a warning. *)
Lemma next_header_class_IP_warns :
  EtherTypeClasses !! ethertype Wire.blank = Some None ∧
  next_header_class Wire.blank =
    (["Warning: no class exists to parse next protocol type: EtherType.IP"],
     Ok None) ∧
  fst (next_header_class Wire.blank) ≠ [].
Proof. split; [reflexivity|]. split; [reflexivity | discriminate]. Qed.

Lemma next_header_class_terminal_witness :
  EtherTypeClasses !! ethertype Wire.frame_ip = Some None ∧
  next_header_class Wire.frame_ip =
    ([no_class_warning Wire.m_IP], Ok None).
Proof.
  split; [reflexivity|].
  apply (next_header_class_terminal Wire.frame_ip). reflexivity.
Defined.

Lemma next_header_class_unrecognized_witness :
  EtherTypeClasses !! ethertype Wire.frame_ipv6 = None ∧
  next_header_class Wire.frame_ipv6 =
    ([], Err (Exception
       "No mapping for ethertype EtherType.IPv6 to a packet header class")).
Proof.
  split; [reflexivity|].
  apply (next_header_class_unrecognized Wire.frame_ipv6). reflexivity.
Defined.

Lemma set_ethertype_domain_witness :
  set_ethertype (ByValue 5) Wire.frame_ip = (Wire.frame_ip, Err (ValueError 5)) ∧
  set_ethertype (ByValue 0x0806) Wire.frame_ip =
    (@mkEthernet Wire.enum Wire.addr_a Wire.addr_b Wire.m_ARP, Ok tt).
Proof.
  split.
  - apply (proj1 (set_ethertype_domain 5 Wire.frame_ip)).
    intros t. destruct t; discriminate.
  - apply (proj2 (set_ethertype_domain 0x0806 Wire.frame_ip) Wire.m_ARP).
    reflexivity.
Defined.

Lemma from_bytes_bad_type_witness :
  (∃ self', from_bytes Wire.bad_type Wire.blank = (self', Err (ValueError 0x1234))) ∧
  (∃ raw self', length raw = 14%nat ∧
     from_bytes raw Wire.blank = (self', Err (ValueError 0x1234))).
Proof.
  split.
  - apply (proj1 (from_bytes_bad_type Wire.blank) Wire.bad_type).
    + cbn; lia.
    + reflexivity.
  - apply (proj2 (from_bytes_bad_type Wire.blank) 0x1234).
    + lia.
    + reflexivity.
Defined.

(** The round trip, the size and the layout on a concrete frame. *)
Example frame_arp_bytes :
  to_bytes Wire.frame_arp =
    Ok [xff; xfe; xfd; xfc; xfb; xfa; x00; x11; x22; x33; x44; x55; x08; x06].
Proof. reflexivity. Qed.

Example frame_arp_decoded :
  from_bytes [xff; xfe; xfd; xfc; xfb; xfa; x00; x11; x22; x33; x44; x55; x08; x06; x2a]
    Wire.blank = (Wire.frame_arp, Ok [x2a]).
Proof. reflexivity. Qed.

(** ** The ICMP-style header *)

(** C9 (default echo): the default header, an echo request with code 0,
    identifier 0 and sequence 0, encodes to the eight bytes
    [08 00 f7 ff 00 00 00 00]; bytes 2 and 3 are, most significant byte
    first, the Internet checksum of the encoding with a zero checksum
    field. *)
Theorem default_echo_to_bytes :
  ICMP.icmptype ICMP.ICMP_default = ICMP.EchoRequest ∧
  ICMP.ICMPType_value ICMP.EchoRequest = 8 ∧
  ICMP.icmpcode ICMP.ICMP_default = 0 ∧
  ICMP.payload ICMP.ICMP_default = ICMP.ICMPEchoRequest 0 0 [] ∧
  ICMP.to_bytes ICMP.ICMP_default = [x08; x00; xf7; xff; x00; x00; x00; x00] ∧
  unpack_H [xf7; xff] =
    ICMP.checksum [x08; x00; x00; x00; x00; x00; x00; x00].
Proof. repeat split. Qed.

(** Switching the default header to source quench resets the payload. *)
Example source_quench_to_bytes :
  ICMP.to_bytes (ICMP.set_icmptype ICMP.SourceQuench ICMP.ICMP_default) =
    [x04; x00; xfb; xff; x00; x00; x00; x00].
Proof. reflexivity. Qed.

(** ** Further properties of the Ethernet codec *)

Section EthernetCodec.
Context {E : EtherTypeEnum}.
Implicit Types (self h : Ethernet) (raw rest : bytes).

(** [from_bytes] on an input spelled out to its fourteenth byte. *)
Lemma from_bytes_cons14 (a0 a1 a2 a3 a4 a5 c0 c1 c2 c3 c4 c5 hi lo : byte) rest self :
  from_bytes (a0 :: a1 :: a2 :: a3 :: a4 :: a5 ::
              c0 :: c1 :: c2 :: c3 :: c4 :: c5 :: hi :: lo :: rest) self =
    match by_value (unpack_H [hi; lo]) with
    | Some t => (mkEthernet (mkEthAddr a0 a1 a2 a3 a4 a5)
                            (mkEthAddr c0 c1 c2 c3 c4 c5) t, Ok rest)
    | None => (mkEthernet (mkEthAddr a0 a1 a2 a3 a4 a5)
                          (mkEthAddr c0 c1 c2 c3 c4 c5) (ethertype self),
               Err (ValueError (unpack_H [hi; lo])))
    end.
Proof.
  unfold from_bytes. cbn. rewrite take_0, drop_0.
  unfold mbind, M_bind, lift, struct_unpack, set_src, set_dst, set_ethertype.
  cbn. by destruct (by_value _).
Qed.

Lemma value_inj (t1 t2 : EtherType) : value t1 = value t2 → t1 = t2.
Proof.
  intros Hv. apply (by_value_spec (value t2) t1) in Hv.
  rewrite by_value_value in Hv. by injection Hv.
Qed.

Lemma Ethernet_eq_true h1 h2 : Ethernet_eq h1 h2 = true ↔ h1 = h2.
Proof.
  split; [|intros ->; apply Ethernet_eq_refl].
  unfold Ethernet_eq, EthAddr_eq. intros Heq.
  apply andb_prop in Heq as [Heq Ht]. apply andb_prop in Heq as [Hs Hd].
  apply bool_decide_eq_true in Hs, Hd, Ht.
  apply packed_inj in Hs, Hd. destruct h1, h2. simpl in *. by subst.
Qed.

(** X1 (decoding a prefix): for every header [H] and every byte sequence
    [rest], decoding the encoding of [H] followed by [rest], on any
    instance, leaves exactly [H] and returns [rest] unconsumed. *)
Theorem from_bytes_to_bytes_app (H self : Ethernet) rest :
  ∃ raw, to_bytes H = Ok raw ∧ from_bytes (raw ++ rest) self = (H, Ok rest).
Proof.
  eexists. split; [apply to_bytes_layout|].
  destruct H as [[a0 a1 a2 a3 a4 a5] [c0 c1 c2 c3 c4 c5] t].
  unfold packed, pack_H. cbn [app o0 o1 o2 o3 o4 o5 src dst ethertype].
  rewrite from_bytes_cons14.
  change [byte_of_Z (value t / 256); byte_of_Z (value t mod 256)]
    with (pack_H (value t)).
  by rewrite unpack_pack_H, by_value_value by apply value_u16.
Qed.

(** X2 (decode, then encode): when [from_bytes] returns, the header it
    leaves encodes to the first 14 bytes of the input, and the input is
    that encoding followed by the returned remainder. *)
Theorem to_bytes_from_bytes raw self self' rest :
  from_bytes raw self = (self', Ok rest) →
  to_bytes self' = Ok (take MINSIZE raw) ∧ raw = take MINSIZE raw ++ rest.
Proof.
  intros Hf.
  destruct (Nat.lt_ge_cases (length raw) MINSIZE) as [Hlt|Hge].
  { by rewrite from_bytes_short in Hf. }
  unfold MINSIZE, calcsize_PACKFMT in Hge. simpl in Hge.
  do 14 (destruct raw as [|? raw]; [simpl in Hge; lia|]).
  rewrite from_bytes_cons14 in Hf.
  destruct (by_value _) as [t|] eqn:Hv; [|discriminate].
  injection Hf as <- <-. apply by_value_spec in Hv.
  rewrite to_bytes_layout. cbn [src dst ethertype].
  rewrite Hv, pack_unpack_H. cbn. by rewrite take_0.
Qed.

(** X3 (when decoding succeeds): [from_bytes] returns exactly when the
    input has at least 14 bytes and bytes 12 and 13, read as a big-endian
    integer, are the value of a member of the enumeration. *)
Theorem from_bytes_returns_iff raw self :
  (∃ self' rest, from_bytes raw self = (self', Ok rest)) ↔
  (MINSIZE ≤ length raw)%nat ∧ is_Some (by_value (unpack_H (take 2 (drop 12 raw)))).
Proof.
  split.
  - intros (self' & rest & Hf).
    destruct (Nat.lt_ge_cases (length raw) MINSIZE) as [Hlt|Hge].
    { by rewrite from_bytes_short in Hf. }
    split; [done|].
    destruct (from_bytes_long raw self Hge) as (s & d & _ & _ & Hl).
    rewrite Hl in Hf. by destruct (by_value _).
  - intros [Hge [t Ht]].
    destruct (from_bytes_long raw self Hge) as (s & d & _ & _ & Hl).
    rewrite Ht in Hl. eauto.
Qed.

(** X4 (no field survives a successful decode): when [from_bytes] returns
    on one instance, it returns the same remainder and leaves the same
    header on every other instance. *)
Theorem from_bytes_overwrites raw self1 self2 self' rest :
  from_bytes raw self1 = (self', Ok rest) →
  from_bytes raw self2 = (self', Ok rest).
Proof.
  intros Hf.
  destruct (Nat.lt_ge_cases (length raw) MINSIZE) as [Hlt|Hge].
  { by rewrite from_bytes_short in Hf. }
  destruct (from_bytes_long raw self1 Hge) as (s1 & d1 & Hs1 & Hd1 & Hl1).
  destruct (from_bytes_long raw self2 Hge) as (s2 & d2 & Hs2 & Hd2 & Hl2).
  rewrite Hl1 in Hf. rewrite Hl2.
  destruct (by_value _); [|discriminate].
  rewrite <- Hs1 in Hs2. rewrite <- Hd1 in Hd2.
  apply packed_inj in Hs2, Hd2. by subst.
Qed.

(** X5 (equality and encodings): two headers are equal under [__eq__]
    exactly when [to_bytes] returns the same bytes for both. *)
Theorem Ethernet_eq_to_bytes h1 h2 :
  Ethernet_eq h1 h2 = true ↔ to_bytes h1 = to_bytes h2.
Proof.
  rewrite Ethernet_eq_true. split; [by intros ->|].
  rewrite !to_bytes_layout.
  destruct h1 as [[] [] t1], h2 as [[] [] t2]. unfold packed. cbn.
  intros Hb. injection Hb as -> -> -> -> -> -> -> -> -> -> -> -> Hhi Hlo.
  assert (pack_H (value t1) = pack_H (value t2)) as Hp
    by (unfold pack_H; congruence).
  apply (f_equal unpack_H) in Hp.
  rewrite !unpack_pack_H in Hp by apply value_u16.
  by apply value_inj in Hp as ->.
Qed.

(** X6 (dispatch by member): [next_header_class] returns the class [Arp],
    printing nothing, when the type is [ARP]; returns [None] after one
    warning line when the type is [IP]; and raises the "No mapping"
    exception, printing nothing, for every other member. *)
Theorem next_header_class_by_member h :
  next_header_class h =
    if decide (ethertype h = ARP) then ([], Ok (Some Arp))
    else if decide (ethertype h = IP)
         then ([no_class_warning (ethertype h)], Ok None)
         else ([], Err (Exception (no_mapping (ethertype h)))).
Proof.
  unfold next_header_class. rewrite EtherTypeClasses_lookup.
  destruct (decide (ethertype h = ARP)); [done|].
  by destruct (decide (ethertype h = IP)).
Qed.

(** X7 (warning and sentinel): [next_header_class] prints a line exactly
    when it returns [None]. *)
Theorem next_header_class_warns_iff h :
  fst (next_header_class h) ≠ [] ↔ snd (next_header_class h) = Ok None.
Proof.
  unfold next_header_class. rewrite EtherTypeClasses_lookup.
  destruct (decide (ethertype h = ARP)); [by cbn|].
  by destruct (decide (ethertype h = IP)).
Qed.

(** X8 (decode, then dispatch): on an input of at least 14 bytes whose
    type field is the value of [ARP], [from_bytes] returns the bytes after
    the fourteenth, and [next_header_class] on the decoded header returns
    the class [Arp] without printing. *)
Theorem from_bytes_dispatch_ARP raw self :
  (MINSIZE ≤ length raw)%nat →
  unpack_H (take 2 (drop 12 raw)) = value ARP →
  ∃ self', from_bytes raw self = (self', Ok (drop MINSIZE raw)) ∧
           next_header_class self' = ([], Ok (Some Arp)).
Proof.
  intros Hge Hv.
  destruct (from_bytes_long raw self Hge) as (s & d & _ & _ & Hl).
  rewrite Hv, by_value_value in Hl.
  eexists. split; [exact Hl|].
  unfold next_header_class. rewrite EtherTypeClasses_lookup. cbn.
  by rewrite decide_True.
Qed.

(** X9 (decoding and construction): on an input of at least 14 bytes,
    [from_bytes] and the constructor applied to the three unpacked fields
    agree: the same header when both return, the same exception when both
    raise. *)
Theorem from_bytes_init raw self :
  (MINSIZE ≤ length raw)%nat →
  init (take 6 raw) (take 6 (drop 6 raw))
       (ByValue (unpack_H (take 2 (drop 12 raw)))) =
    match from_bytes raw self with
    | (self', Ok _) => Ok self'
    | (_, Err e) => Err e
    end.
Proof.
  intros Hge.
  destruct (from_bytes_long raw self Hge) as (s & d & Hs & Hd & ->).
  rewrite <- Hs, <- Hd. unfold init. rewrite !EthAddr_new_packed. cbn.
  by destruct (by_value _).
Qed.

(** X10 (trailing bytes): what follows the fourteenth byte changes neither
    the header [from_bytes] leaves nor whether it raises; it is returned as
    the remainder when the call returns. *)
Theorem from_bytes_trailing raw rest self :
  length raw = MINSIZE →
  from_bytes (raw ++ rest) self =
    match from_bytes raw self with
    | (self', Ok _) => (self', Ok rest)
    | (self', Err e) => (self', Err e)
    end.
Proof.
  intros Hlen. unfold MINSIZE, calcsize_PACKFMT in Hlen. simpl in Hlen.
  do 14 (destruct raw as [|? raw]; [discriminate|]).
  destruct raw; [|discriminate].
  cbn [app]. rewrite !from_bytes_cons14. by destruct (by_value _).
Qed.

End EthernetCodec.

(** ** The test-mode entry point *)

Section MainTestFacts.
Import SwitchyTest.
Context {X EntryPoint : Type}.
Variable compile_scenario_raises : string → option X.
Variable import_user_code_result : string → X + EntryPoint.
Variable run_tests_raises : list string → EntryPoint → bool → bool → option X.

Abbreviation compile_loop := (compile_loop X EntryPoint compile_scenario_raises).
Abbreviation main_test :=
  (main_test X EntryPoint compile_scenario_raises import_user_code_result
     run_tests_raises).

(** Case analysis on the membership of a call in an explicit sequence. *)
Ltac in_calls :=
  repeat match goal with
  | H : @elem_of (call _) _ _ _ [] |- _ => by apply elem_of_nil in H
  | H : @elem_of (call _) _ _ _ (_ :: _) |- _ => apply elem_of_cons in H as [H|H]
  | H : @eq (call _) _ _ |- _ => first [discriminate H | injection H as ?; subst]
  end.

(** The two calls the loop makes for one scenario. *)
Definition compile_calls (scenario : string) : list (call EntryPoint) :=
  [log_info ("Compiling scenario " +:+ scenario); compile_scenario scenario].

Lemma compile_loop_all (l : list string) :
  (∀ s, s ∈ l → compile_scenario_raises s = None) →
  compile_loop l = (flat_map compile_calls l, None).
Proof.
  induction l as [|s l IH]; intros Hok; [done|].
  cbn. rewrite (Hok s) by apply list_elem_of_here.
  rewrite IH; [done|]. intros s' Hs'. apply Hok. by apply list_elem_of_further.
Qed.

Lemma compile_loop_stops (l1 l2 : list string) s x :
  (∀ s', s' ∈ l1 → compile_scenario_raises s' = None) →
  compile_scenario_raises s = Some x →
  compile_loop (l1 ++ s :: l2) = (flat_map compile_calls (l1 ++ [s]), Some x).
Proof.
  intros Hok Hs. induction l1 as [|s1 l1 IH]; cbn.
  - by rewrite Hs.
  - rewrite (Hok s1) by apply list_elem_of_here.
    rewrite IH; [done|]. intros s' Hs'. apply Hok. by apply list_elem_of_further.
Qed.

Lemma compile_loop_calls (l : list string) c :
  c ∈ (compile_loop l).1 → ∃ s, s ∈ l ∧ c ∈ compile_calls s.
Proof.
  induction l as [|s l IH]; cbn; [by intros ?%elem_of_nil|].
  destruct (compile_scenario_raises s).
  - intros Hc. exists s. split; [apply list_elem_of_here | done].
  - destruct (compile_loop l) as [later out] eqn:Hl. cbn in *.
    intros [Hc|Hc]%(elem_of_app [_; _]).
    + exists s. split; [apply list_elem_of_here | done].
    + destruct (IH Hc) as (s' & Hs' & Hc'). exists s'.
      split; [by apply list_elem_of_further | done].
Qed.

(** X11 (compile mode): in compile mode, when [compile_scenario] returns
    for every scenario of a non-empty list, [main_test] logs and compiles
    each scenario, in the order of the list, and returns; it neither
    imports the user code nor runs tests. *)
Theorem main_test_compiles_all (l : list string) usercode dryrun no_pdb verbose :
  l ≠ [] →
  (∀ s, s ∈ l → compile_scenario_raises s = None) →
  main_test true (Some l) usercode dryrun no_pdb verbose =
    (flat_map compile_calls l, None).
Proof.
  intros Hne Hok. destruct l as [|s l]; [done|].
  by apply compile_loop_all.
Qed.

(** X12 (compile mode, failure): in compile mode, the first scenario whose
    compilation raises ends the call with that exception; the scenarios
    before it have been compiled in order, those after it are neither
    logged nor compiled. *)
Theorem main_test_compile_stops (l1 l2 : list string) s x usercode dryrun no_pdb verbose :
  (∀ s', s' ∈ l1 → compile_scenario_raises s' = None) →
  compile_scenario_raises s = Some x →
  main_test true (Some (l1 ++ s :: l2)) usercode dryrun no_pdb verbose =
    (flat_map compile_calls (l1 ++ [s]), Some x).
Proof.
  intros Hok Hs.
  replace (main_test true (Some (l1 ++ s :: l2)) usercode dryrun no_pdb verbose)
    with (compile_loop (l1 ++ s :: l2)) by (by destruct l1).
  by apply compile_loop_stops.
Qed.

(** X13 (what is called when): in every call of [main_test], a scenario is
    compiled only in compile mode and only if it is in the list; the user
    code is imported only outside compile mode, with a non-empty list, and
    it is the module asked for; tests are run only if, moreover, the dry
    run is off and the import returned the entry point passed on, with the
    list and the flags of the call. *)
Theorem main_test_calls compile scenarios usercode dryrun no_pdb verbose :
  (∀ s, compile_scenario s ∈
          (main_test compile scenarios usercode dryrun no_pdb verbose).1 →
     compile = true ∧ ∃ l, scenarios = Some l ∧ s ∈ l) ∧
  (∀ u, import_user_code u ∈
          (main_test compile scenarios usercode dryrun no_pdb verbose).1 →
     compile = false ∧ u = usercode ∧ ∃ l, scenarios = Some l ∧ l ≠ []) ∧
  (∀ l entry a b, run_tests l entry a b ∈
          (main_test compile scenarios usercode dryrun no_pdb verbose).1 →
     compile = false ∧ dryrun = false ∧ scenarios = Some l ∧ l ≠ [] ∧
     import_user_code_result usercode = inr entry ∧ a = no_pdb ∧ b = verbose).
Proof.
  destruct scenarios as [[|s0 l0]|].
  1,3: cbn [SwitchyTest.main_test fst]; by repeat split; intros; in_calls.
  destruct compile; cbn [SwitchyTest.main_test].
  - split; [|split].
    + intros s (s' & Hs' & Hc)%compile_loop_calls.
      split; [done|]. exists (s0 :: l0). split; [done|].
      unfold compile_calls in Hc. by in_calls.
    + intros u (s' & _ & Hc)%compile_loop_calls.
      unfold compile_calls in Hc. in_calls.
    + intros l entry a b (s' & _ & Hc)%compile_loop_calls.
      unfold compile_calls in Hc. in_calls.
  - destruct (import_user_code_result usercode) as [x|entry] eqn:Hi;
      [|destruct dryrun]; cbn [fst]; (split; [|split]).
    all: intros; in_calls; try done.
    all: split; [done|]; split; [done|]; by exists (s0 :: l0).
Qed.

End MainTestFacts.

(** ** The further properties on concrete inputs *)

Lemma to_bytes_from_bytes_witness :
  to_bytes Wire.frame_arp = Ok (take MINSIZE (Sample.arp_frame ++ [x2a])) ∧
  Sample.arp_frame ++ [x2a] = take MINSIZE (Sample.arp_frame ++ [x2a]) ++ [x2a].
Proof.
  apply (to_bytes_from_bytes (Sample.arp_frame ++ [x2a]) Wire.blank Wire.frame_arp [x2a]).
  reflexivity.
Defined.

Lemma from_bytes_overwrites_witness :
  from_bytes (Sample.arp_frame ++ [x2a]) Wire.frame_ipv6 = (Wire.frame_arp, Ok [x2a]).
Proof.
  apply (from_bytes_overwrites (Sample.arp_frame ++ [x2a]) Wire.blank Wire.frame_ipv6).
  reflexivity.
Defined.

Lemma from_bytes_dispatch_ARP_witness :
  ∃ self', from_bytes (Sample.arp_frame ++ [x2a]) Wire.blank = (self', Ok [x2a]) ∧
           next_header_class self' = ([], Ok (Some Arp)).
Proof.
  apply (from_bytes_dispatch_ARP (Sample.arp_frame ++ [x2a]) Wire.blank).
  - cbn; lia.
  - reflexivity.
Defined.

Lemma from_bytes_init_witness :
  init (packed Wire.addr_b) (packed Wire.addr_a) (ByValue 0x1234) =
    Err (ValueError 0x1234) ∧
  from_bytes Wire.bad_type Wire.blank =
    (@mkEthernet Wire.enum Wire.addr_b Wire.addr_a Wire.m_IP, Err (ValueError 0x1234)).
Proof.
  split; [|reflexivity].
  apply (from_bytes_init Wire.bad_type Wire.blank). cbn; lia.
Defined.

Lemma from_bytes_trailing_witness :
  from_bytes (Sample.arp_frame ++ [x2a; x2b]) Wire.blank =
    (Wire.frame_arp, Ok [x2a; x2b]).
Proof.
  apply (from_bytes_trailing Sample.arp_frame [x2a; x2b] Wire.blank).
  reflexivity.
Defined.

Lemma main_test_compiles_all_witness :
  Sample.main_test true (Some ["hub"; "switch"]) "myhub" false false false =
    ([SwitchyTest.log_info "Compiling scenario hub";
      SwitchyTest.compile_scenario "hub";
      SwitchyTest.log_info "Compiling scenario switch";
      SwitchyTest.compile_scenario "switch"], None).
Proof.
  apply (main_test_compiles_all Sample.compile_raises Sample.import_result
           Sample.run_raises ["hub"; "switch"]).
  - discriminate.
  - intros s Hs. apply elem_of_cons in Hs as [->|Hs]; [reflexivity|].
    apply elem_of_cons in Hs as [->|Hs]; [reflexivity|].
    by apply elem_of_nil in Hs.
Defined.

Lemma main_test_compile_stops_witness :
  Sample.main_test true (Some ["hub"; "broken"; "switch"]) "myhub" false false false =
    ([SwitchyTest.log_info "Compiling scenario hub";
      SwitchyTest.compile_scenario "hub";
      SwitchyTest.log_info "Compiling scenario broken";
      SwitchyTest.compile_scenario "broken"], Some "SyntaxError").
Proof.
  apply (main_test_compile_stops Sample.compile_raises Sample.import_result
           Sample.run_raises ["hub"] ["switch"] "broken" "SyntaxError").
  - intros s Hs. apply elem_of_cons in Hs as [->|Hs]; [reflexivity|].
    by apply elem_of_nil in Hs.
  - reflexivity.
Defined.

Lemma main_test_calls_witness :
  Sample.main_test false (Some ["hub"]) "myhub" false true false =
    ([SwitchyTest.import_user_code "myhub";
      SwitchyTest.run_tests ["hub"] 7%nat true false], None) ∧
  Sample.import_result "myhub" = inr 7%nat.
Proof.
  split; [reflexivity|].
  apply (proj2 (proj2 (main_test_calls Sample.compile_raises Sample.import_result
           Sample.run_raises false (Some ["hub"]) "myhub" false true false))
         ["hub"] 7%nat true false).
  apply list_elem_of_further, list_elem_of_here.
Defined.
